(** * Password_Generator.py: the generator and the spreadsheet record store

    A shallow embedding of [src/Password_Generator.py].  The two Python
    classes become two modules of state-passing functions:

    - [Password_Generator]: the preference dictionary, the character pool and
      the password loop over [secrets.choice];
    - [PasswordGUI]: the button handler [generate_password] and the store
      routine [save_excel], over a world made of the generator, the result
      label, the disk and the entropy source.

    Python exceptions are results of an exception-and-state monad; a raised
    exception keeps the state reached so far, as in Python, where attribute
    assignments made before a [raise] stay in place.

    Scope of the model.  A [str] is a [string] of 8-bit characters and
    [str.upper] is its action on the ASCII range.  Of the widgets only the
    text of the result label is kept (fonts, colours and layout are not).
    The disk maps a path to the content of the file there; a save that the
    operating system refuses (a locked or read-only file) is not modelled.
    The window construction and [open_excel] are left out. *)

From Stdlib Require Import ZArith Ascii String List Lia.
From stdpp Require Import base strings gmap list.

Local Open Scope Z_scope.

(* ===================================================================== *)
(** ** Python values, exceptions, and the exception-and-state monad       *)
(* ===================================================================== *)

(** The values the handler stores in [prefs]: [int(...)] of the length entry
    and the four [BooleanVar.get()] results.  [bool] is a subclass of [int]
    in Python, so both kinds have a truth value and both are accepted by
    [range]. *)
Inductive pyval : Type :=
  | PInt (z : Z)
  | PBool (b : bool).

(** Truth value of an object in an [if]. *)
Definition truthy (v : pyval) : bool :=
  match v with
  | PInt z => negb (z =? 0)
  | PBool b => b
  end.

(** [operator.index]: the integer [range] sees. *)
Definition index (v : pyval) : Z :=
  match v with
  | PInt z => z
  | PBool b => if b then 1 else 0
  end.

Inductive exn : Type :=
  | KeyError (key : string)          (* subscript of a missing dict key *)
  | IndexError                       (* secrets.choice on an empty sequence *)
  | ValueError                       (* int() of text that is no integer literal *)
  | ExcelReadError.                  (* pd.read_excel on a file that is no workbook *)

Inductive outcome (A : Type) : Type :=
  | Return (a : A)
  | Raise (e : exn).
Arguments Return {A} a.
Arguments Raise {A} e.

Definition M (S A : Type) : Type := S -> outcome A * S.

Definition ret {S A} (a : A) : M S A := fun s => (Return a, s).
Definition raise {S A} (e : exn) : M S A := fun s => (Raise e, s).
Definition bind {S A B} (m : M S A) (k : A -> M S B) : M S B :=
  fun s => match m s with
           | (Return a, s') => k a s'
           | (Raise e, s') => (Raise e, s')
           end.
Definition get {S} : M S S := fun s => (Return s, s).
Definition modify {S} (f : S -> S) : M S unit := fun s => (Return tt, f s).

Notation "'let!' x ':=' m 'in' k" := (bind m (fun x => k))
  (at level 10, x name, m at level 100, k at level 200).
Notation "m '>>>' k" := (bind m (fun _ => k))
  (at level 90, right associativity).

(** [d[key]] on a dict. *)
Definition subscript {S} (d : gmap string pyval) (key : string) : M S pyval :=
  match d !! key with
  | Some v => ret v
  | None => raise (KeyError key)
  end.

(** The characters of a [str], in order. *)
Definition chars (s : string) : list ascii := list_ascii_of_string s.

(* ===================================================================== *)
(** ** The secure random source                                           *)
(* ===================================================================== *)

(** [secrets] reads the operating system's entropy pool.  The model is an
    oracle: an unbounded supply of raw numbers and the count of numbers
    consumed so far.  Nothing is assumed about the supply, so a statement
    proved for every [entropy] holds for every outcome of the real source. *)
Record entropy : Type := Entropy { supply : nat -> nat; drawn : nat }.

(** [SystemRandom._randbelow(n)] for [n > 0]: the next raw number, reduced
    below [n]. *)
Definition randbelow (n : nat) : M entropy nat :=
  fun e => (Return (supply e (drawn e) mod n)%nat,
            {| supply := supply e; drawn := S (drawn e) |}).

(** [secrets.choice(seq)]:
    [if not len(seq): raise IndexError(...)]
    [return seq[self._randbelow(len(seq))]]. *)
Definition choice (seq : string) : M entropy ascii :=
  match chars seq with
  | [] => raise IndexError
  | c0 :: _ =>
      let! i := randbelow (List.length (chars seq)) in
      ret (nth i (chars seq) c0)
  end.

(* ===================================================================== *)
(** ** class Password_Generator                                           *)
(* ===================================================================== *)

Module Password_Generator.

(** The instance attributes [self.prefs] and [self.pool]. *)
Record t : Type := Make { prefs : gmap string pyval; pool : string }.

(** [__init__]. *)
Definition init : t := {| prefs := ∅; pool := "" |}.

Definition set_prefs (f : gmap string pyval -> gmap string pyval) (self : t) : t :=
  {| prefs := f (prefs self); pool := pool self |}.
Definition set_pool (f : string -> string) (self : t) : t :=
  {| prefs := prefs self; pool := f (pool self) |}.

(** [set_preferences]: five dict stores in the order of the source, then
    [return self.prefs]. *)
Definition set_preferences (length lowercase uppercase numbers symbols : pyval)
  : M t (gmap string pyval) :=
  modify (set_prefs (insert "length_input" length)) >>>
  modify (set_prefs (insert "symbols" symbols)) >>>
  modify (set_prefs (insert "uppercase" uppercase)) >>>
  modify (set_prefs (insert "lowercase" lowercase)) >>>
  modify (set_prefs (insert "numbers" numbers)) >>>
  let! self := get in
  ret (prefs self).

Definition lowercase_letters : string := "abcdefghijklmnopqrstuvwxyz".
Definition uppercase_letters : string := "ABCDEFGHIJKLMNOPQRSTUVWXYZ".
Definition digits : string := "0123456789".
Definition symbol_chars : string := "!@#$%^&*()_+-=[]}{|;:,.<>/?".

(** [if self.prefs[key]: self.pool += alphabet]. *)
Definition add_class (key alphabet : string) : M t unit :=
  let! self := get in
  let! flag := subscript (prefs self) key in
  if truthy flag then modify (set_pool (fun p => p +:+ alphabet)) else ret tt.

(** [create_pool]: reset, then the four conditional blocks. *)
Definition create_pool : M t unit :=
  modify (set_pool (fun _ => "")) >>>
  add_class "lowercase" lowercase_letters >>>
  add_class "uppercase" uppercase_letters >>>
  add_class "numbers" digits >>>
  add_class "symbols" symbol_chars.

(** The body of the [for] loop, run [n] times:
    [password += secrets.choice(self.pool)]. *)
Fixpoint draw_loop (n : nat) (pool : string) (password : string) : M entropy string :=
  match n with
  | O => ret password
  | S n' =>
      let! c := choice pool in
      draw_loop n' pool (password +:+ String c "")
  end.

(** [generate_password]: [range(k)] is empty for [k <= 0], hence
    [Z.to_nat]. *)
Definition generate_password (self : t) : M entropy string :=
  let! length_input := subscript (prefs self) "length_input" in
  draw_loop (Z.to_nat (index length_input)) (pool self) "".

End Password_Generator.

(* ===================================================================== *)
(** ** The spreadsheet libraries: xlsxwriter and pandas                   *)
(* ===================================================================== *)

(** What a worksheet cell holds, and what an element of a [DataFrame] is. *)
Inductive cell : Type :=
  | CBlank
  | CText (s : string)
  | CNumber (z : Z)
  | CBool (b : bool).

Inductive value : Type :=
  | VNaN
  | VStr (s : string)
  | VInt (z : Z)
  | VBool (b : bool).

(** A saved workbook, as far as this program reads or writes one: the name of
    its (first) sheet, the text labels of the header row, the rows below the
    header, and the column widths set with [set_column].  Header labels are
    text, as [to_excel] writes them; a row shorter than the header has blank
    cells at its end. *)
Record workbook : Type := Workbook {
  sheet_name : string;
  header : list string;
  body : list (list cell);
  col_widths : list (nat * Z)
}.

(** A file on disk is a workbook, or bytes that no Excel reader accepts. *)
Inductive file : Type :=
  | Xlsx (wb : workbook)
  | Unreadable (raw : string).

(** A [DataFrame] is column oriented: labelled columns of equal length. *)
Record DataFrame : Type := Frame {
  columns : list (string * list value);
  nrows : nat
}.

Definition labels (df : DataFrame) : list string := map fst (columns df).

Fixpoint assoc {A} (key : string) (l : list (string * A)) : option A :=
  match l with
  | [] => None
  | (k, v) :: rest => if String.eqb k key then Some v else assoc key rest
  end.

Definition mem (key : string) (l : list string) : bool :=
  existsb (String.eqb key) l.

(** Labels in order of first appearance. *)
Definition union_labels (groups : list (list string)) : list string :=
  fold_left (fun acc ls => acc ++ List.filter (fun l => negb (mem l acc)) ls) groups [].

(** [pd.DataFrame(records)] for a list of dicts: one row per dict, one
    column per key, [NaN] where a dict lacks a key. *)
Definition DataFrame_of_records (records : list (list (string * value))) : DataFrame :=
  {| columns :=
       map (fun l => (l, map (fun r => default VNaN (assoc l r)) records))
           (union_labels (map (map fst) records));
     nrows := List.length records |}.

(** A frame's column under a label, [NaN]-filled when the frame has no such
    column. *)
Definition column_or_nan (label : string) (df : DataFrame) : list value :=
  default (replicate (nrows df) VNaN) (assoc label (columns df)).

(** [pd.concat(frames, ignore_index=True)]: rows stacked in the order of the
    list, columns are the union of the frames' columns (outer join), the row
    index is renumbered. *)
Definition concat (frames : list DataFrame) : DataFrame :=
  {| columns :=
       map (fun l => (l, flat_map (column_or_nan l) frames))
           (union_labels (map labels frames));
     nrows := fold_right (fun df n => (nrows df + n)%nat) 0%nat frames |}.

(** [worksheet.write] as [to_excel] calls it.  pandas replaces [NaN] by
    [na_rep = ''], and xlsxwriter writes an empty string as a blank cell. *)
Definition write_cell (v : value) : cell :=
  match v with
  | VNaN => CBlank
  | VStr s => if String.eqb s "" then CBlank else CText s
  | VInt z => CNumber z
  | VBool b => CBool b
  end.

(** [df.to_excel(writer, index=False, sheet_name=name)]: the header row of
    labels, then row [i] made of the [i]-th element of every column. *)
Definition to_excel (df : DataFrame) (name : string) : workbook :=
  {| sheet_name := name;
     header := labels df;
     body := map (fun i => map (fun c => write_cell (nth i (snd c) VNaN)) (columns df))
                 (seq 0 (nrows df));
     col_widths := [] |}.

(** [worksheet.set_column(first, first, width)]. *)
Definition set_column (col : nat) (width : Z) (wb : workbook) : workbook :=
  {| sheet_name := sheet_name wb; header := header wb; body := body wb;
     col_widths := col_widths wb ++ [(col, width)] |}.

(** pandas decides the type of a column from all of its cells (missing-value
    markers, numbers and booleans written as text).  That routine belongs to
    the library, so the store takes it as a parameter. *)
Definition column_reader : Type := list cell -> list value.

(** The strings [read_excel] takes for missing values when called, as here,
    with [na_values=None, keep_default_na=True] (pandas documentation of
    [read_excel]). *)
Definition default_na_values : list string :=
  [ ""; "#N/A"; "#N/A N/A"; "#NA"; "-1.#IND"; "-1.#QNAN"; "-NaN"; "-nan";
    "1.#IND"; "1.#QNAN"; "<NA>"; "N/A"; "NA"; "NULL"; "NaN"; "None"; "n/a";
    "nan"; "null" ].

(** A reader that applies the missing-value rule and nothing else: what
    pandas does on columns of text that is neither numeric nor boolean. *)
Definition na_filter : column_reader :=
  map (fun c => match c with
                | CBlank => VNaN
                | CText s => if mem s default_na_values then VNaN else VStr s
                | CNumber z => VInt z
                | CBool b => VBool b
                end).

(** [pd.read_excel(path)] on the content of the file: the first row gives the
    labels, every column below it goes through the reader. *)
Definition read_excel {S} (reader : column_reader) (f : file) : M S DataFrame :=
  match f with
  | Unreadable _ => raise ExcelReadError
  | Xlsx wb =>
      ret {| columns :=
               imap (fun j l => (l, reader (map (fun row => nth j row CBlank) (body wb))))
                    (header wb);
             nrows := List.length (body wb) |}
  end.

(** [str.upper] on the ASCII range. *)
Definition upper_char (c : ascii) : ascii :=
  let n := nat_of_ascii c in
  if ((97 <=? n) && (n <=? 122))%nat then ascii_of_nat (n - 32) else c.

Fixpoint upper (s : string) : string :=
  match s with
  | EmptyString => EmptyString
  | String c rest => String (upper_char c) (upper rest)
  end.

(* ===================================================================== *)
(** ** class PasswordGUI                                                  *)
(* ===================================================================== *)

Module PasswordGUI.

(** What the handler can change: the generator instance, the text of the
    result label, the files on disk, and the entropy consumed. *)
Record world : Type := World {
  generator : Password_Generator.t;
  result_label : string;
  disk : gmap string file;
  rng : entropy
}.

(** What the handler reads during one click: the widgets, the answer to the
    purpose dialog and the clock.  The length entry is given by what
    [int(self.length_entry.get())] makes of it: an integer, or [None] when
    [int] raises [ValueError].  [askstring] is [None] when the dialog is
    cancelled. *)
Record inputs : Type := Inputs {
  length_entry : option Z;
  lower_var : bool;
  upper_var : bool;
  num_var : bool;
  sym_var : bool;
  askstring : option string;
  now : string
}.

Definition on_generator {A} (m : M Password_Generator.t A) : M world A :=
  fun w => let (r, g) := m (generator w) in
           (r, {| generator := g; result_label := result_label w;
                  disk := disk w; rng := rng w |}).

Definition on_disk {A} (m : M (gmap string file) A) : M world A :=
  fun w => let (r, d) := m (disk w) in
           (r, {| generator := generator w; result_label := result_label w;
                  disk := d; rng := rng w |}).

Definition on_rng {A} (m : M entropy A) : M world A :=
  fun w => let (r, e) := m (rng w) in
           (r, {| generator := generator w; result_label := result_label w;
                  disk := disk w; rng := e |}).

(** [self.result_label.config(text=...)]; a [font] option is dropped. *)
Definition config (text : string) : M world unit :=
  modify (fun w => {| generator := generator w; result_label := text;
                      disk := disk w; rng := rng w |}).

(** [try: body except ValueError: handler]. *)
Definition try_except_ValueError {S A} (body handler : M S A) : M S A :=
  fun s => match body s with
           | (Raise ValueError, s') => handler s'
           | r => r
           end.

Definition int {S} (entry : option Z) : M S Z :=
  match entry with
  | Some z => ret z
  | None => raise ValueError
  end.

Definition file_path : string := "passwords_sheet.xlsx".

(** Leaving the [with pd.ExcelWriter(path, engine="xlsxwriter")] block
    saves the workbook at [path], replacing what was there. *)
Definition ExcelWriter (path : string) (wb : workbook) : M (gmap string file) unit :=
  modify (insert path (Xlsx wb)).

Definition adjust_widths (wb : workbook) : workbook :=
  set_column 2 25 (set_column 1 35 (set_column 0 25 wb)).

(** [save_excel(self, purpose, password, timestamp)]. *)
Definition save_excel (reader : column_reader) (purpose password timestamp : string)
  : M (gmap string file) unit :=
  let df := DataFrame_of_records
              [[("Purpose", VStr (upper purpose));
                ("Password", VStr password);
                ("Timestamp", VStr timestamp)]] in
  let! files := get in
  match files !! file_path with
  | None =>
      ExcelWriter file_path (adjust_widths (to_excel df "Passwords"))
  | Some f =>
      let! existing := read_excel reader f in
      let updated := concat [existing; df] in
      ExcelWriter file_path (adjust_widths (to_excel updated "Passwords"))
  end.

(** The [try] block at the head of the handler.  [None] stands for the
    handler having returned after showing a message. *)
Definition read_length (ev : inputs) : M world (option Z) :=
  try_except_ValueError
    (let! length := int (length_entry ev) in
     if length <=? 0
     then config "Length has to be positive." >>> ret None
     else ret (Some length))
    (config "Length has to be a number." >>> ret None).

(** [if purpose:] is false for [None] and for the empty string. *)
Definition provided (purpose : option string) : option string :=
  match purpose with
  | Some s => if String.eqb s "" then None else Some s
  | None => None
  end.

(** [generate_password(self)], the command of the button. *)
Definition generate_password (reader : column_reader) (ev : inputs) : M world unit :=
  let! checked := read_length ev in
  match checked with
  | None => ret tt
  | Some length =>
      on_generator
        (Password_Generator.set_preferences
           (PInt length) (PBool (lower_var ev)) (PBool (upper_var ev))
           (PBool (num_var ev)) (PBool (sym_var ev))) >>>
      on_generator Password_Generator.create_pool >>>
      let! w := get in
      if String.eqb (Password_Generator.pool (generator w)) ""
      then config "Select at least one character type."
      else
        let! password := on_rng (Password_Generator.generate_password (generator w)) in
        config password >>>
        let purpose := askstring ev in
        let timestamp := now ev in
        match provided purpose with
        | Some p => on_disk (save_excel reader p password timestamp)
        | None => ret tt
        end
  end.

(** [open_excel] hands the file to the desktop shell; what it can change is
    the world and the list of paths launched so far. *)
Record desktop : Type := Desktop { gui : world; launched : list string }.

Definition on_gui {A} (m : M world A) : M desktop A :=
  fun d => let (r, w) := m (gui d) in (r, {| gui := w; launched := launched d |}).

(** [os.startfile(path)]: the shell opens the file, or the call raises;
    [failure] is the text of the exception in that case. *)
Definition startfile (failure : option string) (path : string) : M desktop (option string) :=
  match failure with
  | Some message => ret (Some message)
  | None =>
      modify (fun d => {| gui := gui d; launched := launched d ++ [path] |}) >>>
      ret None
  end.

(** [open_excel(self)].  [system] is [platform.system()].  The [try] block
    catches every exception of [os.startfile] and shows its text. *)
Definition open_excel (system : string) (failure : option string) : M desktop unit :=
  let! d := get in
  match disk (gui d) !! file_path with
  | None => on_gui (config "Excel file does not exist yet.")
  | Some _ =>
      if String.eqb system "Windows"
      then
        let! caught := startfile failure file_path in
        match caught with
        | Some message => on_gui (config ("Error opening file: " +:+ message))
        | None => ret tt
        end
      else ret tt
  end.

End PasswordGUI.

(* ===================================================================== *)
(** ** Vocabulary of the statements                                       *)
(* ===================================================================== *)

(** The character picked by draw number [i] (counting from the current
    position of the entropy source) out of [pool]. *)
Definition selected (pool : string) (e : entropy) (i : nat) : ascii :=
  nth (supply e (drawn e + i) mod List.length (chars pool))%nat (chars pool) "000"%char.

Definition advance (n : nat) (e : entropy) : entropy :=
  {| supply := supply e; drawn := (drawn e + n)%nat |}.

(** The four character classes, their dictionary keys and alphabets. *)
Inductive char_class : Type := Lowercase | Uppercase | Numbers | Symbols.

Definition key_of (c : char_class) : string :=
  match c with
  | Lowercase => "lowercase"
  | Uppercase => "uppercase"
  | Numbers => "numbers"
  | Symbols => "symbols"
  end.

Definition alphabet (c : char_class) : string :=
  match c with
  | Lowercase => Password_Generator.lowercase_letters
  | Uppercase => Password_Generator.uppercase_letters
  | Numbers => Password_Generator.digits
  | Symbols => Password_Generator.symbol_chars
  end.

(** The flags as a function of the class. *)
Definition flags (lowercase uppercase numbers symbols : bool) (c : char_class) : bool :=
  match c with
  | Lowercase => lowercase
  | Uppercase => uppercase
  | Numbers => numbers
  | Symbols => symbols
  end.

(** The enabled alphabets, joined in the fixed class order. *)
Definition enabled_alphabets (enabled : char_class -> bool) : string :=
  (if enabled Lowercase then alphabet Lowercase else "") +:+
  (if enabled Uppercase then alphabet Uppercase else "") +:+
  (if enabled Numbers then alphabet Numbers else "") +:+
  (if enabled Symbols then alphabet Symbols else "").

Definition memb (c : ascii) (l : list ascii) : bool := existsb (Ascii.eqb c) l.

(** The keys [set_preferences] writes. *)
Definition preference_keys : list string :=
  ["length_input"; "symbols"; "uppercase"; "lowercase"; "numbers"].

(** Number of characters a class contributes when enabled. *)
Definition class_size (c : char_class) : nat :=
  match c with
  | Lowercase => 26
  | Uppercase => 26
  | Numbers => 10
  | Symbols => 27
  end.

(** Generator computations that leave [prefs] alone. *)
Definition keeps_prefs {A} (m : M Password_Generator.t A) : Prop :=
  forall self, Password_Generator.prefs (snd (m self)) = Password_Generator.prefs self.

(** Two generators that agree on the four class keys and on the pool. *)
Definition agree (self other : Password_Generator.t) : Prop :=
  (forall c, Password_Generator.prefs self !! key_of c
             = Password_Generator.prefs other !! key_of c) /\
  Password_Generator.pool self = Password_Generator.pool other.

(** Generator computations that cannot tell such generators apart. *)
Definition reads_flags_only {A} (m : M Password_Generator.t A) : Prop :=
  forall self other, agree self other ->
    fst (m self) = fst (m other) /\ agree (snd (m self)) (snd (m other)).

(** What [set_preferences] leaves in the dictionary, written as the five
    stores applied to the old dictionary. *)
Definition stored_prefs (length lowercase uppercase numbers symbols : pyval)
    (old : gmap string pyval) : gmap string pyval :=
  <["numbers" := numbers]>
    (<["lowercase" := lowercase]>
       (<["uppercase" := uppercase]>
          (<["symbols" := symbols]>
             (<["length_input" := length]> old)))).

(** The handler's generator after a click that passed the length check. *)
Definition clicked_generator (length : Z) (ev : PasswordGUI.inputs)
    (old : Password_Generator.t) : Password_Generator.t :=
  {| Password_Generator.prefs :=
       stored_prefs (PInt length)
         (PBool (PasswordGUI.lower_var ev)) (PBool (PasswordGUI.upper_var ev))
         (PBool (PasswordGUI.num_var ev)) (PBool (PasswordGUI.sym_var ev))
         (Password_Generator.prefs old);
     Password_Generator.pool :=
       enabled_alphabets (flags (PasswordGUI.lower_var ev) (PasswordGUI.upper_var ev)
                                (PasswordGUI.num_var ev) (PasswordGUI.sym_var ev)) |}.

(** The world after a click: generator, label, disk, entropy. *)
Definition relabel (text : string) (w : PasswordGUI.world) : PasswordGUI.world :=
  {| PasswordGUI.generator := PasswordGUI.generator w;
     PasswordGUI.result_label := text;
     PasswordGUI.disk := PasswordGUI.disk w;
     PasswordGUI.rng := PasswordGUI.rng w |}.

(** The password of a click: [n] picks from the pool. *)
Definition picks (pool : string) (e : entropy) (n : nat) : string :=
  string_of_list_ascii (map (selected pool e) (seq 0 n)).

(** The three columns of the store, and a stored record as a row of cells. *)
Definition expected_header : list string := ["Purpose"; "Password"; "Timestamp"].

Definition record_cells (r : string * string * string) : list cell :=
  let '(purpose, password, timestamp) := r in
  [write_cell (VStr purpose); write_cell (VStr password); write_cell (VStr timestamp)].

(** The workbook [save_excel] writes for a table of records. *)
Definition table_workbook (records : list (string * string * string)) : workbook :=
  {| sheet_name := "Passwords";
     header := expected_header;
     body := map record_cells records;
     col_widths := [(0%nat, 25); (1%nat, 35); (2%nat, 25)] |}.

(** A file that is a table of the three expected columns. *)
Definition expected_shape (f : file) : bool :=
  match f with
  | Xlsx wb => bool_decide (header wb = expected_header)
  | Unreadable _ => false
  end.

(* ===================================================================== *)
(** ** Strings and the monad: basic facts                                 *)
(* ===================================================================== *)

Lemma chars_app (a b : string) : chars (a +:+ b) = chars a ++ chars b.
Proof.
  induction a as [|c a IH]; [reflexivity|].
  change (chars (String c (a +:+ b)) = c :: (chars a ++ chars b)).
  unfold chars in *. simpl. by rewrite IH.
Qed.

Lemma chars_length (s : string) : List.length (chars s) = String.length s.
Proof. induction s as [|c s IH]; [reflexivity|]. unfold chars in *. simpl. by rewrite IH. Qed.

Lemma chars_inj (a b : string) : chars a = chars b -> a = b.
Proof.
  intros H. rewrite <- (string_of_list_ascii_of_string a), <- (string_of_list_ascii_of_string b).
  unfold chars in H. by rewrite H.
Qed.

Lemma memb_elem_of (c : ascii) (l : list ascii) : memb c l = true <-> c ∈ l.
Proof.
  unfold memb. rewrite existsb_exists, list_elem_of_In. split.
  - intros (x & Hx & Heq). apply Ascii.eqb_eq in Heq. by subst.
  - intros H. exists c. split; [done|]. apply Ascii.eqb_refl.
Qed.

(* ===================================================================== *)
(** ** The password loop                                                  *)
(* ===================================================================== *)

Section Draws.
Import Password_Generator.

Lemma choice_nonempty (pool : string) (e : entropy) :
  chars pool <> [] ->
  choice pool e = (Return (selected pool e 0), advance 1 e).
Proof.
  intros Hne. unfold choice.
  destruct (chars pool) as [|c0 rest] eqn:Hp; [done|].
  unfold bind, randbelow, ret, selected, advance. rewrite Hp, Nat.add_0_r.
  f_equal; [f_equal|f_equal; lia].
  apply nth_indep, Nat.mod_upper_bound. simpl. lia.
Qed.


Lemma selected_advance (pool : string) (e : entropy) (i : nat) :
  selected pool (advance 1 e) i = selected pool e (S i).
Proof. unfold selected, advance. simpl. do 3 f_equal. lia. Qed.

Lemma selected_in_pool (pool : string) (e : entropy) (i : nat) :
  chars pool <> [] -> selected pool e i ∈ chars pool.
Proof.
  intros Hne. unfold selected. apply list_elem_of_In, nth_In.
  apply Nat.mod_upper_bound. destruct (chars pool); [done|]. simpl. lia.
Qed.

(** The loop appends the picked characters to the accumulator, one draw
    per round. *)
Lemma draw_loop_run (pool : string) :
  chars pool <> [] ->
  forall (n : nat) (password : string) (e : entropy),
    draw_loop n pool password e =
      (Return (password +:+ string_of_list_ascii (map (selected pool e) (seq 0 n))),
       advance n e).
Proof.
  intros Hne. induction n as [|n IH]; intros password e.
  - simpl. unfold ret, advance. f_equal.
    + f_equal. apply chars_inj. rewrite chars_app. simpl. by rewrite app_nil_r.
    + destruct e. simpl. f_equal. lia.
  - cbn [draw_loop]. unfold bind. rewrite choice_nonempty by done.
    rewrite IH. f_equal.
    + f_equal. apply chars_inj. rewrite !chars_app.
      unfold chars at 2 4. rewrite !list_ascii_of_string_of_list_ascii.
      cbn [seq map]. rewrite <- seq_shift, map_map.
      rewrite <- app_assoc. f_equal. unfold chars. simpl. f_equal.
      apply map_ext. intros i. apply selected_advance.
    + unfold advance. simpl. f_equal. lia.
Qed.

End Draws.

(* ===================================================================== *)
(** ** Password_Generator.generate_password                               *)
(* ===================================================================== *)

Section Generate.
Import Password_Generator.

(** C1.  With a non-empty pool and a stored length of at least one,
    [generate_password] returns normally; the password has exactly
    [length] characters, every character belongs to the pool, and the
    characters are the picks of the successive draws in draw order
    (one draw per character). *)
Theorem generate_password_length_members (self : t) (e : entropy) (length : Z) :
  prefs self !! "length_input" = Some (PInt length) ->
  1 <= length ->
  pool self <> "" ->
  exists password : string,
    generate_password self e = (Return password, advance (Z.to_nat length) e) /\
    Z.of_nat (String.length password) = length /\
    Forall (fun c => c ∈ chars (pool self)) (chars password) /\
    chars password = map (selected (pool self) e) (seq 0 (Z.to_nat length)).
Proof.
  intros Hlen Hpos Hpool.
  assert (Hne : chars (pool self) <> []).
  { intros Hnil. apply Hpool, chars_inj. by rewrite Hnil. }
  exists (string_of_list_ascii (map (selected (pool self) e) (seq 0 (Z.to_nat length)))).
  assert (Hchars : forall l, chars (string_of_list_ascii l) = l)
    by apply list_ascii_of_string_of_list_ascii.
  split; [|split; [|split]].
  - unfold generate_password, subscript, bind. rewrite Hlen. unfold ret at 1.
    cbn [index]. rewrite (draw_loop_run _ Hne). reflexivity.
  - rewrite <- chars_length, Hchars, length_map, length_seq. lia.
  - rewrite Hchars. apply List.Forall_forall. intros c Hc.
    apply in_map_iff in Hc as (i & <- & _).
    by apply selected_in_pool.
  - apply Hchars.
Qed.

Lemma generate_password_length_members_witness :
  exists password : string,
    generate_password {| prefs := {[ "length_input" := PInt 3 ]}; pool := "ab" |}
                      {| supply := fun i => i; drawn := 0 |}
      = (Return password, advance 3 {| supply := fun i => i; drawn := 0 |}) /\
    Z.of_nat (String.length password) = 3 /\
    Forall (fun c => c ∈ chars "ab") (chars password) /\
    chars password = map (selected "ab" {| supply := fun i => i; drawn := 0 |}) (seq 0 3).
Proof.
  apply (generate_password_length_members
           {| prefs := {[ "length_input" := PInt 3 ]}; pool := "ab" |}
           {| supply := fun i => i; drawn := 0 |} 3).
  - reflexivity.
  - lia.
  - discriminate.
Defined.

(** C9.  The stored length is not validated: with [length_input = 0] and
    any pool, the empty one included, [generate_password] returns the empty
    string, raises nothing and draws nothing from the entropy source. *)
Theorem generate_password_zero_length (self : t) (e : entropy) :
  prefs self !! "length_input" = Some (PInt 0) ->
  generate_password self e = (Return "", e).
Proof.
  intros Hlen. unfold generate_password, subscript, bind. rewrite Hlen. reflexivity.
Qed.

Lemma generate_password_zero_length_witness :
  generate_password {| prefs := {[ "length_input" := PInt 0 ]}; pool := "" |}
                    {| supply := fun i => i; drawn := 5 |}
    = (Return "", {| supply := fun i => i; drawn := 5 |}).
Proof.
  apply (generate_password_zero_length
           {| prefs := {[ "length_input" := PInt 0 ]}; pool := "" |}
           {| supply := fun i => i; drawn := 5 |}).
  reflexivity.
Defined.

End Generate.

(* ===================================================================== *)
(** ** Password_Generator.create_pool                                     *)
(* ===================================================================== *)

Section Pool.
Import Password_Generator.

(** The conditional blocks, once the four flags are known. *)
Lemma create_pool_run (self : t) (lc uc nu sy : bool) :
  (forall c, prefs self !! key_of c = Some (PBool (flags lc uc nu sy c))) ->
  create_pool self
    = (Return tt, {| prefs := prefs self;
                     pool := enabled_alphabets (flags lc uc nu sy) |}).
Proof.
  intros Hflags.
  pose proof (Hflags Lowercase) as Hl. pose proof (Hflags Uppercase) as Hu.
  pose proof (Hflags Numbers) as Hn. pose proof (Hflags Symbols) as Hs.
  cbn [key_of flags] in Hl, Hu, Hn, Hs.
  unfold create_pool, add_class, bind, modify, get, subscript, set_pool, ret.
  cbn [prefs pool]. rewrite Hl. cbn [truthy prefs pool].
  destruct lc; cbn [prefs pool]; rewrite Hu; cbn [truthy prefs pool];
    destruct uc; cbn [prefs pool]; rewrite Hn; cbn [truthy prefs pool];
    destruct nu; cbn [prefs pool]; rewrite Hs; cbn [truthy prefs pool];
    destruct sy; reflexivity.
Qed.

Lemma class_membership (lc uc nu sy : bool) (c : char_class) :
  forallb (fun ch => Bool.eqb (memb ch (chars (enabled_alphabets (flags lc uc nu sy))))
                              (flags lc uc nu sy c))
          (chars (alphabet c)) = true.
Proof. destruct lc, uc, nu, sy, c; vm_compute; reflexivity. Qed.

Lemma enabled_alphabets_NoDup (lc uc nu sy : bool) :
  NoDup (chars (enabled_alphabets (flags lc uc nu sy))).
Proof.
  destruct lc, uc, nu, sy; apply (bool_decide_unpack _); vm_compute; reflexivity.
Qed.

Lemma enabled_alphabets_empty (lc uc nu sy : bool) :
  enabled_alphabets (flags lc uc nu sy) = "" <->
  forall c, flags lc uc nu sy c = false.
Proof.
  split.
  - intros Hempty c. destruct lc, uc, nu, sy; try discriminate Hempty.
    by destruct c.
  - intros Hoff.
    pose proof (Hoff Lowercase) as Hl. pose proof (Hoff Uppercase) as Hu.
    pose proof (Hoff Numbers) as Hn. pose proof (Hoff Symbols) as Hs.
    cbn in Hl, Hu, Hn, Hs. by subst.
Qed.

(** C2.  For every assignment of the four boolean flags, [create_pool]
    leaves as pool exactly the alphabets of the enabled classes, joined in
    the order lowercase, uppercase, digits, symbols.  A character of a
    class alphabet is in the pool exactly when its class is enabled (so
    every enabled class is covered and no character of a disabled class
    occurs), no character occurs twice, and the pool is empty exactly when
    all four flags are false. *)
Theorem create_pool_enabled_classes (self : t) (lc uc nu sy : bool) :
  (forall c, prefs self !! key_of c = Some (PBool (flags lc uc nu sy c))) ->
  exists self' : t,
    create_pool self = (Return tt, self') /\
    prefs self' = prefs self /\
    pool self' = enabled_alphabets (flags lc uc nu sy) /\
    (forall c ch, ch ∈ chars (alphabet c) ->
                  (ch ∈ chars (pool self') <-> flags lc uc nu sy c = true)) /\
    NoDup (chars (pool self')) /\
    (pool self' = "" <-> forall c, flags lc uc nu sy c = false).
Proof.
  intros Hflags. eexists. split; [by apply create_pool_run|].
  cbn [prefs pool]. split; [done|]. split; [done|]. split; [|split].
  - intros c ch Hch.
    pose proof (class_membership lc uc nu sy c) as Hall.
    rewrite forallb_forall in Hall.
    specialize (Hall ch (proj1 (list_elem_of_In _ _) Hch)).
    apply Bool.eqb_prop in Hall. rewrite <- Hall. symmetry. apply memb_elem_of.
  - apply enabled_alphabets_NoDup.
  - apply enabled_alphabets_empty.
Qed.

Lemma create_pool_enabled_classes_witness :
  exists self' : t,
    create_pool {| prefs := {[ "lowercase" := PBool true; "uppercase" := PBool false;
                               "numbers" := PBool true; "symbols" := PBool false ]};
                   pool := "stale" |} = (Return tt, self') /\
    prefs self' = {[ "lowercase" := PBool true; "uppercase" := PBool false;
                     "numbers" := PBool true; "symbols" := PBool false ]} /\
    pool self' = enabled_alphabets (flags true false true false) /\
    (forall c ch, ch ∈ chars (alphabet c) ->
                  (ch ∈ chars (pool self') <-> flags true false true false c = true)) /\
    NoDup (chars (pool self')) /\
    (pool self' = "" <-> forall c, flags true false true false c = false).
Proof.
  assert (Hflags : forall c,
             prefs {| prefs := {[ "lowercase" := PBool true; "uppercase" := PBool false;
                                  "numbers" := PBool true; "symbols" := PBool false ]};
                      pool := "stale" |} !! key_of c
             = Some (PBool (flags true false true false c))).
  { intros c. destruct c; vm_compute; reflexivity. }
  exact (create_pool_enabled_classes _ true false true false Hflags).
Defined.

(** One conditional block. *)
Lemma add_class_run (key letters : string) (self : t) :
  add_class key letters self =
    match prefs self !! key with
    | Some v => (Return tt,
                 if truthy v
                 then {| prefs := prefs self; pool := pool self +:+ letters |}
                 else self)
    | None => (Raise (KeyError key), self)
    end.
Proof.
  unfold add_class, bind, get, subscript, ret, raise, modify.
  destruct (prefs self !! key) as [v|]; [destruct (truthy v)|]; reflexivity.
Qed.

Lemma keeps_prefs_bind {A B} (m : M t A) (k : A -> M t B) :
  keeps_prefs m -> (forall a, keeps_prefs (k a)) -> keeps_prefs (bind m k).
Proof.
  intros Hm Hk self. unfold bind. specialize (Hm self).
  destruct (m self) as [[a|e] s']; cbn [snd] in *; [|done].
  by rewrite Hk.
Qed.

Lemma keeps_prefs_add_class (key letters : string) :
  keeps_prefs (add_class key letters).
Proof.
  intros self. rewrite add_class_run.
  destruct (prefs self !! key) as [v|]; [destruct (truthy v)|]; reflexivity.
Qed.

(** [create_pool] never touches the preferences. *)
Lemma create_pool_prefs (self : t) : prefs (snd (create_pool self)) = prefs self.
Proof.
  revert self. change (keeps_prefs create_pool). unfold create_pool.
  repeat (apply keeps_prefs_bind; [|intros _]);
    solve [apply keeps_prefs_add_class | intros self; reflexivity].
Qed.

(** The old pool is discarded by the first statement. *)
Lemma create_pool_reset (self other : t) :
  prefs self = prefs other -> create_pool self = create_pool other.
Proof.
  intros Hsame. unfold create_pool.
  set (rest := add_class "lowercase" _ >>> _).
  unfold bind, modify, set_pool. by rewrite Hsame.
Qed.

Lemma create_pool_twice (self : t) :
  snd (create_pool (snd (create_pool self))) = snd (create_pool self).
Proof. f_equal. apply create_pool_reset, create_pool_prefs. Qed.

Lemma reads_flags_only_bind {A B} (m : M t A) (k : A -> M t B) :
  reads_flags_only m -> (forall a, reads_flags_only (k a)) ->
  reads_flags_only (bind m k).
Proof.
  intros Hm Hk self other Hagree. unfold bind.
  destruct (Hm self other Hagree) as [Hout Hnext].
  destruct (m self) as [[a|e] s1], (m other) as [[a'|e'] s2];
    cbn [fst snd] in *; try discriminate.
  - injection Hout as ->. by apply Hk.
  - injection Hout as ->. by split.
Qed.

Lemma reads_flags_only_add_class (c : char_class) (letters : string) :
  reads_flags_only (add_class (key_of c) letters).
Proof.
  intros self other [Hflags Hpool]. rewrite !add_class_run, (Hflags c).
  destruct (prefs other !! key_of c) as [v|]; [destruct (truthy v)|];
    cbn [fst snd]; (split; [reflexivity|]); split; cbn [prefs pool];
    try done.
  by rewrite Hpool.
Qed.

(** Only the four class keys are read. *)
Lemma create_pool_reads_flags (self other : t) :
  (forall c, prefs self !! key_of c = prefs other !! key_of c) ->
  fst (create_pool self) = fst (create_pool other) /\
  pool (snd (create_pool self)) = pool (snd (create_pool other)).
Proof.
  intros Hflags. unfold create_pool.
  set (rest := add_class "lowercase" _ >>> _).
  assert (Hrest : reads_flags_only rest).
  { subst rest.
    apply reads_flags_only_bind; [apply (reads_flags_only_add_class Lowercase)|intros _].
    apply reads_flags_only_bind; [apply (reads_flags_only_add_class Uppercase)|intros _].
    apply reads_flags_only_bind; [apply (reads_flags_only_add_class Numbers)|intros _].
    apply (reads_flags_only_add_class Symbols). }
  unfold bind at 1 2. unfold modify.
  destruct (Hrest (set_pool (fun _ => "") self) (set_pool (fun _ => "") other))
    as [Hout [_ Hpool]]; [by split|].
  by split.
Qed.

(** C10.  [create_pool] resets the pool before rebuilding it: its outcome
    and the pool it leaves depend on the four class flags alone,
    whatever pool (and whatever other preference) was stored before; and
    calling it any number of times in succession ([n >= 1]) leaves the same
    generator as calling it once. *)
Theorem create_pool_function_of_flags_idempotent :
  (forall self other : t,
      (forall c, prefs self !! key_of c = prefs other !! key_of c) ->
      fst (create_pool self) = fst (create_pool other) /\
      pool (snd (create_pool self)) = pool (snd (create_pool other))) /\
  (forall (self : t) (n : nat),
      (1 <= n)%nat ->
      Nat.iter n (fun g => snd (create_pool g)) self = snd (create_pool self)).
Proof.
  split; [apply create_pool_reads_flags|].
  intros self n Hn. destruct n as [|n]; [lia|]. clear Hn.
  induction n as [|n IH]; [reflexivity|].
  change (Nat.iter (S (S n)) (fun g => snd (create_pool g)) self)
    with (snd (create_pool (Nat.iter (S n) (fun g => snd (create_pool g)) self))).
  rewrite IH. apply create_pool_twice.
Qed.

Lemma create_pool_function_of_flags_idempotent_witness :
  pool (snd (create_pool {| prefs := {[ "lowercase" := PBool true; "uppercase" := PBool false;
                                        "numbers" := PBool false; "symbols" := PBool false ]};
                            pool := "stale" |}))
    = pool (snd (create_pool {| prefs := {[ "lowercase" := PBool true; "uppercase" := PBool false;
                                            "numbers" := PBool false; "symbols" := PBool false;
                                            "length_input" := PInt 9 ]};
                                pool := "" |})) /\
  Nat.iter 3 (fun g => snd (create_pool g)) init = snd (create_pool init).
Proof.
  split.
  - apply (proj1 create_pool_function_of_flags_idempotent).
    intros c. destruct c; vm_compute; reflexivity.
  - apply (proj2 create_pool_function_of_flags_idempotent). lia.
Defined.

End Pool.

(* ===================================================================== *)
(** ** PasswordGUI.generate_password                                      *)
(* ===================================================================== *)

Section Handler.
Import Password_Generator PasswordGUI.

Lemma set_preferences_run (length lowercase uppercase numbers symbols : pyval) (self : t) :
  set_preferences length lowercase uppercase numbers symbols self
    = (Return (stored_prefs length lowercase uppercase numbers symbols (prefs self)),
       {| prefs := stored_prefs length lowercase uppercase numbers symbols (prefs self);
          pool := pool self |}).
Proof. reflexivity. Qed.

Lemma stored_prefs_flags (length : pyval) (lc uc nu sy : bool)
    (old : gmap string pyval) (c : char_class) :
  stored_prefs length (PBool lc) (PBool uc) (PBool nu) (PBool sy) old !! key_of c
    = Some (PBool (flags lc uc nu sy c)).
Proof.
  unfold stored_prefs. destruct c; cbn [key_of flags];
    repeat (rewrite lookup_insert_ne by done); apply lookup_insert_eq.
Qed.

Lemma stored_prefs_length (length lowercase uppercase numbers symbols : pyval)
    (old : gmap string pyval) :
  stored_prefs length lowercase uppercase numbers symbols old !! "length_input"
    = Some length.
Proof.
  unfold stored_prefs. repeat (rewrite lookup_insert_ne by done). apply lookup_insert_eq.
Qed.

Lemma bind_run {S A B} (m : M S A) (k : A -> M S B) (s s' : S) (a : A) :
  m s = (Return a, s') -> bind m k s = k a s'.
Proof. intros Hm. unfold bind. by rewrite Hm. Qed.

(** The password loop on a non-empty pool, for any stored integer. *)
Lemma generate_password_run (self : t) (e : entropy) (length : Z) :
  prefs self !! "length_input" = Some (PInt length) ->
  pool self <> "" ->
  Password_Generator.generate_password self e
    = (Return (picks (pool self) e (Z.to_nat length)), advance (Z.to_nat length) e).
Proof.
  intros Hlen Hpool.
  assert (Hne : chars (pool self) <> []).
  { intros Hnil. apply Hpool, chars_inj. by rewrite Hnil. }
  unfold Password_Generator.generate_password, subscript, bind.
  rewrite Hlen. unfold ret at 1.
  cbn [index]. by rewrite (draw_loop_run _ Hne).
Qed.

(** The length check, case by case. *)
Lemma read_length_run (ev : inputs) (w : world) :
  read_length ev w =
    match length_entry ev with
    | None => (Return None, relabel "Length has to be a number." w)
    | Some z => if z <=? 0
                then (Return None, relabel "Length has to be positive." w)
                else (Return (Some z), w)
    end.
Proof.
  unfold read_length, try_except_ValueError, int, bind, config, modify, ret, raise.
  destruct (length_entry ev) as [z|]; [|reflexivity].
  by destruct (z <=? 0).
Qed.

Lemma store_preferences_run (length : Z) (ev : inputs) (w : world) :
  on_generator
    (set_preferences (PInt length) (PBool (lower_var ev)) (PBool (upper_var ev))
                     (PBool (num_var ev)) (PBool (sym_var ev))) w
  = (Return (stored_prefs (PInt length) (PBool (lower_var ev)) (PBool (upper_var ev))
                          (PBool (num_var ev)) (PBool (sym_var ev))
                          (prefs (generator w))),
     {| generator :=
          {| prefs := stored_prefs (PInt length) (PBool (lower_var ev))
                        (PBool (upper_var ev)) (PBool (num_var ev)) (PBool (sym_var ev))
                        (prefs (generator w));
             pool := pool (generator w) |};
        result_label := result_label w; disk := disk w; rng := rng w |}).
Proof. reflexivity. Qed.

Lemma rebuild_pool_run (length : Z) (ev : inputs) (old : string) (w : world) :
  on_generator create_pool
    {| generator :=
         {| prefs := stored_prefs (PInt length) (PBool (lower_var ev))
                       (PBool (upper_var ev)) (PBool (num_var ev)) (PBool (sym_var ev))
                       (prefs (generator w));
            pool := old |};
       result_label := result_label w; disk := disk w; rng := rng w |}
  = (Return tt,
     {| generator := clicked_generator length ev (generator w);
        result_label := result_label w; disk := disk w; rng := rng w |}).
Proof.
  unfold on_generator. cbn [generator].
  rewrite (create_pool_run _ (lower_var ev) (upper_var ev) (num_var ev) (sym_var ev))
    by (intros c; apply stored_prefs_flags).
  reflexivity.
Qed.

(** The handler, case by case. *)
Lemma handler_run (reader : column_reader) (ev : inputs) (w : world) :
  PasswordGUI.generate_password reader ev w =
    match length_entry ev with
    | None => (Return tt, relabel "Length has to be a number." w)
    | Some z =>
        if z <=? 0 then (Return tt, relabel "Length has to be positive." w)
        else
          let g := clicked_generator z ev (generator w) in
          if String.eqb (pool g) ""
          then (Return tt,
                {| generator := g; result_label := "Select at least one character type.";
                   disk := disk w; rng := rng w |})
          else
            let password := picks (pool g) (rng w) (Z.to_nat z) in
            let e := advance (Z.to_nat z) (rng w) in
            match provided (askstring ev) with
            | None => (Return tt,
                       {| generator := g; result_label := password;
                          disk := disk w; rng := e |})
            | Some p =>
                (fst (save_excel reader p password (now ev) (disk w)),
                 {| generator := g; result_label := password;
                    disk := snd (save_excel reader p password (now ev) (disk w));
                    rng := e |})
            end
    end.
Proof.
  unfold PasswordGUI.generate_password. unfold bind at 1. rewrite read_length_run.
  destruct (length_entry ev) as [z|]; [|reflexivity].
  destruct (z <=? 0); [reflexivity|].
  rewrite (bind_run _ _ _ _ _ (store_preferences_run z ev w)).
  rewrite (bind_run _ _ _ _ _ (rebuild_pool_run z ev _ w)).
  unfold bind at 1. unfold get at 1. cbn [generator].
  cbv zeta.
  destruct (String.eqb (pool (clicked_generator z ev (generator w))) "") eqn:Hpool;
    [reflexivity|].
  apply String.eqb_neq in Hpool.
  unfold bind at 1. unfold on_rng at 1. cbn [generator rng].
  rewrite (generate_password_run _ _ z) by (apply stored_prefs_length || done).
  unfold bind at 1. unfold config at 1. unfold modify at 1.
  cbn [generator result_label disk rng].
  destruct (provided (askstring ev)) as [p|]; [|reflexivity].
  unfold on_disk. cbn [generator result_label disk rng].
  by destruct (save_excel reader p _ (now ev) (disk w)).
Qed.

End Handler.

Section Click.
Import Password_Generator PasswordGUI.

(** C4.  With all four class flags false and a positive length,
    [create_pool] leaves the empty pool; [generate_password] on that
    generator raises ([IndexError], out of [secrets.choice]) instead of
    returning a password, before any draw, so no partial password exists;
    and the handler stops at the pool check with its message, leaving the
    disk and the entropy source as they were. *)
Theorem no_class_selected_fails (self : t) (e : entropy) (length : Z)
    (reader : column_reader) (ev : inputs) (w : world) :
  0 < length ->
  length_entry ev = Some length ->
  lower_var ev = false -> upper_var ev = false ->
  num_var ev = false -> sym_var ev = false ->
  let prepared :=
    snd (set_preferences (PInt length) (PBool false) (PBool false)
                         (PBool false) (PBool false) self) in
  create_pool prepared = (Return tt, {| prefs := prefs prepared; pool := "" |}) /\
  Password_Generator.generate_password {| prefs := prefs prepared; pool := "" |} e
    = (Raise IndexError, e) /\
  PasswordGUI.generate_password reader ev w
    = (Return tt,
       {| generator := {| prefs := prefs (clicked_generator length ev (generator w));
                          pool := "" |};
          result_label := "Select at least one character type.";
          disk := disk w; rng := rng w |}).
Proof.
  intros Hpos Hlen Hl Hu Hn Hs prepared. split; [|split].
  - subst prepared. rewrite set_preferences_run. cbn [snd prefs].
    rewrite (create_pool_run _ false false false false)
      by (intros c; apply stored_prefs_flags).
    reflexivity.
  - subst prepared. rewrite set_preferences_run. cbn [snd prefs].
    unfold Password_Generator.generate_password, subscript, bind.
    cbn [prefs pool]. rewrite stored_prefs_length. unfold ret at 1. cbn [index].
    destruct (Z.to_nat length) as [|n] eqn:Hn'; [lia|]. reflexivity.
  - rewrite handler_run, Hlen.
    destruct (length <=? 0) eqn:Hle; [lia|].
    unfold clicked_generator. rewrite Hl, Hu, Hn, Hs. reflexivity.
Qed.

Lemma no_class_selected_fails_witness :
  let self := init in
  let e := {| supply := fun i => i; drawn := 0 |} in
  let ev := {| length_entry := Some 8; lower_var := false; upper_var := false;
               num_var := false; sym_var := false;
               askstring := Some "email"; now := "2024-01-01 00:00:00" |} in
  let w := {| generator := init; result_label := ""; disk := ∅; rng := e |} in
  let prepared :=
    snd (set_preferences (PInt 8) (PBool false) (PBool false)
                         (PBool false) (PBool false) self) in
  create_pool prepared = (Return tt, {| prefs := prefs prepared; pool := "" |}) /\
  Password_Generator.generate_password {| prefs := prefs prepared; pool := "" |} e
    = (Raise IndexError, e) /\
  PasswordGUI.generate_password na_filter ev w
    = (Return tt,
       {| generator := {| prefs := prefs (clicked_generator 8 ev (generator w));
                          pool := "" |};
          result_label := "Select at least one character type.";
          disk := disk w; rng := rng w |}).
Proof.
  intros self e ev w.
  apply (no_class_selected_fails self e 8 na_filter ev w); [lia|reflexivity..].
Defined.

(** C8.  When the purpose dialog is cancelled or left empty, the handler
    returns normally and the disk, the table file included, is exactly what
    it was: no record is saved and nothing is raised. *)
Theorem declined_purpose_saves_nothing (reader : column_reader) (ev : inputs) (w : world) :
  askstring ev = None \/ askstring ev = Some "" ->
  exists w' : world,
    PasswordGUI.generate_password reader ev w = (Return tt, w') /\
    disk w' = disk w /\
    (forall length : Z,
        length_entry ev = Some length -> 0 < length ->
        lower_var ev || upper_var ev || num_var ev || sym_var ev = true ->
        result_label w' =
          picks (pool (clicked_generator length ev (generator w))) (rng w)
                (Z.to_nat length) /\
        String.length (result_label w') = Z.to_nat length).
Proof.
  intros Hdeclined.
  assert (Hnone : provided (askstring ev) = None)
    by (destruct Hdeclined as [-> | ->]; reflexivity).
  rewrite handler_run, Hnone.
  destruct (length_entry ev) as [z|] eqn:Hlen.
  - destruct (z <=? 0) eqn:Hle.
    + eexists. split; [reflexivity|]. split; [reflexivity|].
      intros length [= <-] Hpos. lia.
    + cbv zeta.
      destruct (String.eqb (pool (clicked_generator z ev (generator w))) "") eqn:Hpool.
      * eexists. split; [reflexivity|]. split; [reflexivity|].
        intros length [= <-] Hpos Hsome. exfalso.
        apply String.eqb_eq in Hpool. cbn [clicked_generator pool] in Hpool.
        pose proof (proj1 (enabled_alphabets_empty _ _ _ _) Hpool) as Hoff.
        pose proof (Hoff Lowercase) as Hl. pose proof (Hoff Uppercase) as Hu.
        pose proof (Hoff Numbers) as Hn. pose proof (Hoff Symbols) as Hs.
        cbn [flags] in Hl, Hu, Hn, Hs. rewrite Hl, Hu, Hn, Hs in Hsome. discriminate.
      * eexists. split; [reflexivity|]. split; [reflexivity|].
        intros length [= <-] Hpos Hsome. cbn [result_label]. split; [reflexivity|].
        unfold picks. rewrite <- chars_length. unfold chars.
        rewrite list_ascii_of_string_of_list_ascii, length_map, length_seq. done.
  - eexists. split; [reflexivity|]. split; [reflexivity|]. intros length [=].
Qed.

Lemma declined_purpose_saves_nothing_witness :
  let ev := {| length_entry := Some 8; lower_var := true; upper_var := false;
               num_var := true; sym_var := false;
               askstring := None; now := "2024-01-01 00:00:00" |} in
  let w := {| generator := init; result_label := "";
              disk := {[ file_path := Unreadable "not a workbook" ]};
              rng := {| supply := fun i => i; drawn := 0 |} |} in
  exists w' : world,
    PasswordGUI.generate_password na_filter ev w = (Return tt, w') /\
    disk w' = disk w /\
    (forall length : Z,
        length_entry ev = Some length -> 0 < length ->
        lower_var ev || upper_var ev || num_var ev || sym_var ev = true ->
        result_label w' =
          picks (pool (clicked_generator length ev (generator w))) (rng w)
                (Z.to_nat length) /\
        String.length (result_label w') = Z.to_nat length).
Proof.
  intros ev w.
  apply (declined_purpose_saves_nothing na_filter ev w).
  left. reflexivity.
Defined.

End Click.

(* ===================================================================== *)
(** ** PasswordGUI.save_excel                                             *)
(* ===================================================================== *)

Section Store.
Import PasswordGUI.

(** First save: the file is created with the one record. *)
Lemma save_excel_creates (reader : column_reader) (purpose password timestamp : string)
    (files : gmap string file) :
  files !! file_path = None ->
  save_excel reader purpose password timestamp files
    = (Return tt,
       <[file_path := Xlsx (table_workbook [(upper purpose, password, timestamp)])]> files).
Proof.
  intros Hfresh. unfold save_excel, bind, get. rewrite Hfresh. reflexivity.
Qed.



(** C3.  The scenario of the claim holds: saving ("email", "X7g!qT2z",
    "2024-01-01 00:00:00") where no file exists creates the one-row table
    EMAIL / X7g!qT2z / 2024-01-01 00:00:00 under Purpose, Password,
    Timestamp.  The round trip does not hold for every pair of records:
    save ("n/a", ...) and then ("email", ...) into a fresh store.  The
    second save reads the stored "N/A" back as a missing value and rewrites
    the first row with a blank Purpose, so the table read back afterwards
    has [NaN], not "N/A", as the purpose of the first record. *)
Theorem round_trip_loses_na_purpose :
  let r1 := ("n/a", "dkry5cjq", "2024-01-01 00:00:00") in
  let r2 := ("email", "X7g!qT2z", "2024-01-02 00:00:00") in
  let after1 := snd (save_excel na_filter r1.1.1 r1.1.2 r1.2 ∅) in
  let after2 := snd (save_excel na_filter r2.1.1 r2.1.2 r2.2 after1) in
  (* the scenario *)
  save_excel na_filter "email" "X7g!qT2z" "2024-01-01 00:00:00" ∅
    = (Return tt,
       {[ file_path :=
            Xlsx {| sheet_name := "Passwords";
                    header := ["Purpose"; "Password"; "Timestamp"];
                    body := [[CText "EMAIL"; CText "X7g!qT2z";
                              CText "2024-01-01 00:00:00"]];
                    col_widths := [(0%nat, 25); (1%nat, 35); (2%nat, 25)] |} ]}) /\
  (* the first record is stored as given, purpose upper-cased *)
  after1 !! file_path
    = Some (Xlsx (table_workbook [("N/A", "dkry5cjq", "2024-01-01 00:00:00")])) /\
  (* both saves return normally *)
  fst (save_excel na_filter r1.1.1 r1.1.2 r1.2 ∅) = Return tt /\
  fst (save_excel na_filter r2.1.1 r2.1.2 r2.2 after1) = Return tt /\
  (* the table read back *)
  (exists f, after2 !! file_path = Some f /\
     read_excel na_filter f tt
       = (Return {| columns :=
                      [("Purpose", [VNaN; VStr "EMAIL"]);
                       ("Password", [VStr "dkry5cjq"; VStr "X7g!qT2z"]);
                       ("Timestamp", [VStr "2024-01-01 00:00:00";
                                      VStr "2024-01-02 00:00:00"])];
                    nrows := 2 |}, tt)).
Proof.
  cbv zeta. split; [|split; [|split; [|split]]].
  - rewrite save_excel_creates by reflexivity. reflexivity.
  - rewrite save_excel_creates by reflexivity. cbn [snd].
    by rewrite lookup_insert_eq.
  - by rewrite save_excel_creates.
  - vm_compute. reflexivity.
  - eexists. split; vm_compute; reflexivity.
Qed.

(** C5.  An existing row is not always preserved.  Two clicks of the
    button, the first with purpose "n/a" and the second with purpose
    "email": after the first the table holds the row N/A / password /
    timestamp; the second save returns normally and rewrites that row with
    a blank Purpose cell, before the new last row. *)
Theorem append_rewrites_na_purpose_row :
  let e := {| supply := fun i => (i * 7 + 3)%nat; drawn := 0 |} in
  let w0 := {| generator := Password_Generator.init; result_label := "";
               disk := ∅; rng := e |} in
  let click purpose time :=
    {| length_entry := Some 8; lower_var := true; upper_var := false;
       num_var := true; sym_var := false;
       askstring := Some purpose; now := time |} in
  let w1 := snd (PasswordGUI.generate_password na_filter
                   (click "n/a" "2024-01-01 00:00:00") w0) in
  let w2 := snd (PasswordGUI.generate_password na_filter
                   (click "email" "2024-01-02 00:00:00") w1) in
  disk w1 !! file_path
    = Some (Xlsx (table_workbook [("N/A", "dkry5cjq", "2024-01-01 00:00:00")])) /\
  body (table_workbook [("N/A", "dkry5cjq", "2024-01-01 00:00:00")])
    = [[CText "N/A"; CText "dkry5cjq"; CText "2024-01-01 00:00:00"]] /\
  fst (PasswordGUI.generate_password na_filter
         (click "email" "2024-01-02 00:00:00") w1) = Return tt /\
  disk w2 !! file_path
    = Some (Xlsx {| sheet_name := "Passwords";
                    header := ["Purpose"; "Password"; "Timestamp"];
                    body := [[CBlank; CText "dkry5cjq"; CText "2024-01-01 00:00:00"];
                             [CText "EMAIL"; CText "x4bipw3a";
                              CText "2024-01-02 00:00:00"]];
                    col_widths := [(0%nat, 25); (1%nat, 35); (2%nat, 25)] |}).
Proof. cbv zeta. split; [|split; [|split]]; vm_compute; reflexivity. Qed.

(** C6, for a file that cannot be opened.  When the file at the store path is
    not a workbook the reader can open, [save_excel] raises the reader's
    error to its caller and leaves every file as it was: nothing is
    overwritten. *)
Theorem save_excel_unreadable_raises (reader : column_reader)
    (purpose password timestamp raw : string) (files : gmap string file) :
  files !! file_path = Some (Unreadable raw) ->
  save_excel reader purpose password timestamp files = (Raise ExcelReadError, files).
Proof.
  intros Hfile. unfold save_excel, bind, get. rewrite Hfile. reflexivity.
Qed.

Lemma save_excel_unreadable_raises_witness :
  save_excel na_filter "email" "X7g!qT2z" "2024-01-01 00:00:00"
             {[ file_path := Unreadable "PK, truncated" ]}
    = (Raise ExcelReadError, {[ file_path := Unreadable "PK, truncated" ]}).
Proof.
  apply (save_excel_unreadable_raises na_filter "email" "X7g!qT2z"
           "2024-01-01 00:00:00" "PK, truncated").
  reflexivity.
Defined.

(** C6, for a file of another shape.  A workbook with the columns Site and
    Login is not a table of the expected shape, yet [save_excel] raises
    nothing: it returns normally and replaces the file by a five-column
    table, the union of the old columns and the three of the store. *)
Lemma save_excel_other_columns_overwritten :
  let old := Xlsx {| sheet_name := "Sheet1"; header := ["Site"; "Login"];
                     body := [[CText "example.org"; CText "alice"]];
                     col_widths := [] |} in
  let new := Xlsx {| sheet_name := "Passwords";
                     header := ["Site"; "Login"; "Purpose"; "Password"; "Timestamp"];
                     body := [[CText "example.org"; CText "alice";
                               CBlank; CBlank; CBlank];
                              [CBlank; CBlank; CText "EMAIL"; CText "X7g!qT2z";
                               CText "2024-01-01 00:00:00"]];
                     col_widths := [(0%nat, 25); (1%nat, 35); (2%nat, 25)] |} in
  expected_shape old = false /\
  save_excel na_filter "email" "X7g!qT2z" "2024-01-01 00:00:00" {[ file_path := old ]}
    = (Return tt, {[ file_path := new ]}) /\
  ~ (exists e, save_excel na_filter "email" "X7g!qT2z" "2024-01-01 00:00:00"
                          {[ file_path := old ]}
               = (Raise e, {[ file_path := old ]})).
Proof.
  cbv zeta. split; [reflexivity|].
  match goal with |- ?run = ?res /\ _ => assert (Hrun : run = res) end.
  { vm_compute. reflexivity. }
  split; [exact Hrun|].
  intros [e He]. rewrite Hrun in He. apply (f_equal fst) in He. discriminate He.
Qed.

End Store.

(* ===================================================================== *)
(** ** Further properties of Password_Generator                           *)
(* ===================================================================== *)

Section Preferences.
Import Password_Generator.

(** X1.  [set_preferences] stores its five arguments verbatim under the five
    keys, whatever their values, returns the resulting dictionary, never
    raises, and leaves every other key and the pool untouched. *)
Theorem set_preferences_stores (length lowercase uppercase numbers symbols : pyval)
    (self : t) :
  exists p : gmap string pyval,
    set_preferences length lowercase uppercase numbers symbols self
      = (Return p, {| prefs := p; pool := pool self |}) /\
    p !! "length_input" = Some length /\
    p !! "lowercase" = Some lowercase /\
    p !! "uppercase" = Some uppercase /\
    p !! "numbers" = Some numbers /\
    p !! "symbols" = Some symbols /\
    (forall key, key ∉ preference_keys -> p !! key = prefs self !! key).
Proof.
  exists (stored_prefs length lowercase uppercase numbers symbols (prefs self)).
  split; [apply set_preferences_run|].
  unfold stored_prefs.
  repeat (split; [repeat (rewrite lookup_insert_ne by done); apply lookup_insert_eq|]).
  intros key Hkey. unfold preference_keys in Hkey.
  repeat (rewrite lookup_insert_ne; [|intros <-; apply Hkey; set_solver]).
  reflexivity.
Qed.

(** X2.  A second [set_preferences] overrides the first completely: the
    generator after two calls is the generator after the last call alone. *)
Theorem set_preferences_overrides
    (l1 a1 b1 c1 d1 l2 a2 b2 c2 d2 : pyval) (self : t) :
  snd (set_preferences l2 a2 b2 c2 d2 (snd (set_preferences l1 a1 b1 c1 d1 self)))
    = snd (set_preferences l2 a2 b2 c2 d2 self).
Proof.
  rewrite !set_preferences_run. cbn [snd prefs pool]. f_equal.
  unfold stored_prefs. apply map_eq. intros key.
  rewrite !lookup_insert. repeat case_decide; reflexivity.
Qed.

(** The conditional blocks for arbitrary stored values: a class is taken when
    its value is truthy. *)
Lemma create_pool_truthy (self : t) (vl vu vn vs : pyval) :
  prefs self !! "lowercase" = Some vl ->
  prefs self !! "uppercase" = Some vu ->
  prefs self !! "numbers" = Some vn ->
  prefs self !! "symbols" = Some vs ->
  create_pool self
    = (Return tt,
       {| prefs := prefs self;
          pool := enabled_alphabets (flags (truthy vl) (truthy vu) (truthy vn) (truthy vs)) |}).
Proof.
  intros Hl Hu Hn Hs.
  unfold create_pool, add_class, bind, modify, get, subscript, set_pool, ret.
  cbn [prefs pool]. rewrite Hl.
  destruct (truthy vl); cbn [prefs pool]; rewrite Hu;
    destruct (truthy vu); cbn [prefs pool]; rewrite Hn;
    destruct (truthy vn); cbn [prefs pool]; rewrite Hs;
    destruct (truthy vs); reflexivity.
Qed.

(** X3.  [create_pool] tests the truth value of what is stored, not its
    type: with integers in place of booleans a class is enabled exactly when
    its integer is not zero. *)
Theorem create_pool_integer_flags (self : t) (zl zu zn zs : Z) :
  prefs self !! "lowercase" = Some (PInt zl) ->
  prefs self !! "uppercase" = Some (PInt zu) ->
  prefs self !! "numbers" = Some (PInt zn) ->
  prefs self !! "symbols" = Some (PInt zs) ->
  create_pool self
    = (Return tt,
       {| prefs := prefs self;
          pool := enabled_alphabets
                    (flags (negb (zl =? 0)) (negb (zu =? 0))
                           (negb (zn =? 0)) (negb (zs =? 0))) |}).
Proof. intros Hl Hu Hn Hs. by rewrite (create_pool_truthy _ _ _ _ _ Hl Hu Hn Hs). Qed.

Lemma create_pool_integer_flags_witness :
  let self := {| prefs := {[ "lowercase" := PInt 0; "uppercase" := PInt 0;
                             "numbers" := PInt 7; "symbols" := PInt 0 ]};
                 pool := "stale" |} in
  create_pool self
    = (Return tt,
       {| prefs := prefs self;
          pool := enabled_alphabets
                    (flags (negb (0 =? 0)) (negb (0 =? 0))
                           (negb (7 =? 0)) (negb (0 =? 0))) |}).
Proof.
  intros self.
  apply (create_pool_integer_flags self 0 0 7 0); reflexivity.
Defined.

(** Either all four keys are there, or the run stops at a missing one. *)
Lemma create_pool_outcome (self : t) :
  (exists vl vu vn vs,
      prefs self !! "lowercase" = Some vl /\ prefs self !! "uppercase" = Some vu /\
      prefs self !! "numbers" = Some vn /\ prefs self !! "symbols" = Some vs /\
      fst (create_pool self) = Return tt) \/
  (exists c, prefs self !! key_of c = None /\
             fst (create_pool self) = Raise (KeyError (key_of c))).
Proof.
  destruct (prefs self !! "lowercase") as [vl|] eqn:Hl; cycle 1.
  { right. exists Lowercase. split; [done|].
    unfold create_pool, add_class, bind, modify, get, subscript, set_pool, ret, raise.
    cbn [prefs pool key_of]. by rewrite Hl. }
  destruct (prefs self !! "uppercase") as [vu|] eqn:Hu; cycle 1.
  { right. exists Uppercase. split; [done|].
    unfold create_pool, add_class, bind, modify, get, subscript, set_pool, ret, raise.
    cbn [prefs pool key_of]. rewrite Hl.
    destruct (truthy vl); cbn [prefs pool]; by rewrite Hu. }
  destruct (prefs self !! "numbers") as [vn|] eqn:Hn; cycle 1.
  { right. exists Numbers. split; [done|].
    unfold create_pool, add_class, bind, modify, get, subscript, set_pool, ret, raise.
    cbn [prefs pool key_of]. rewrite Hl.
    destruct (truthy vl); cbn [prefs pool]; rewrite Hu;
      destruct (truthy vu); cbn [prefs pool]; by rewrite Hn. }
  destruct (prefs self !! "symbols") as [vs|] eqn:Hs; cycle 1.
  { right. exists Symbols. split; [done|].
    unfold create_pool, add_class, bind, modify, get, subscript, set_pool, ret, raise.
    cbn [prefs pool key_of]. rewrite Hl.
    destruct (truthy vl); cbn [prefs pool]; rewrite Hu;
      destruct (truthy vu); cbn [prefs pool]; rewrite Hn;
      destruct (truthy vn); cbn [prefs pool]; by rewrite Hs. }
  left. exists vl, vu, vn, vs. repeat (split; [done|]).
  by rewrite (create_pool_truthy _ _ _ _ _ Hl Hu Hn Hs).
Qed.

(** X4.  [create_pool] returns normally exactly when all four class keys are
    present; otherwise it raises [KeyError] for a class key that is missing.
    When the first key is missing the old pool is already gone: the
    generator is left with the empty pool. *)
Theorem create_pool_needs_all_keys (self : t) :
  (fst (create_pool self) = Return tt <->
   forall c, is_Some (prefs self !! key_of c)) /\
  (forall e, fst (create_pool self) = Raise e ->
     exists c, e = KeyError (key_of c) /\ prefs self !! key_of c = None) /\
  (prefs self !! "lowercase" = None ->
     create_pool self
       = (Raise (KeyError "lowercase"), {| prefs := prefs self; pool := "" |})).
Proof.
  split; [|split].
  - split.
    + intros Hret c.
      destruct (create_pool_outcome self)
        as [(vl & vu & vn & vs & Hl & Hu & Hn & Hs & _) | (c' & _ & Hraise)].
      * destruct c; cbn [key_of]; eauto.
      * rewrite Hraise in Hret. discriminate Hret.
    + intros Hall.
      destruct (create_pool_outcome self)
        as [(vl & vu & vn & vs & _ & _ & _ & _ & Hret) | (c & Hnone & _)]; [done|].
      destruct (Hall c) as [v Hv]. congruence.
  - intros e He.
    destruct (create_pool_outcome self)
      as [(vl & vu & vn & vs & _ & _ & _ & _ & Hret) | (c & Hnone & Hraise)].
    + rewrite Hret in He. discriminate He.
    + exists c. split; [congruence|done].
  - intros Hl.
    unfold create_pool, add_class, bind, modify, get, subscript, set_pool, ret, raise.
    cbn [prefs pool]. by rewrite Hl.
Qed.

Lemma create_pool_needs_all_keys_witness :
  create_pool {| prefs := ∅; pool := "stale" |}
    = (Raise (KeyError "lowercase"),
       {| prefs := prefs {| prefs := ∅; pool := "stale" |}; pool := "" |}).
Proof.
  apply (proj2 (proj2 (create_pool_needs_all_keys {| prefs := ∅; pool := "stale" |}))).
  reflexivity.
Defined.

(** X5.  The size of the pool is the sum of the sizes of the enabled classes
    (26, 26, 10 and 27 characters), so at most 89. *)
Theorem create_pool_size (self : t) (lc uc nu sy : bool) :
  (forall c, prefs self !! key_of c = Some (PBool (flags lc uc nu sy c))) ->
  String.length (pool (snd (create_pool self)))
    = ((if lc then class_size Lowercase else 0) + (if uc then class_size Uppercase else 0) +
       (if nu then class_size Numbers else 0) + (if sy then class_size Symbols else 0))%nat /\
  (String.length (pool (snd (create_pool self))) <= 89)%nat.
Proof.
  intros Hflags. rewrite (create_pool_run _ _ _ _ _ Hflags). cbn [snd pool].
  destruct lc, uc, nu, sy; vm_compute; split; (reflexivity || lia).
Qed.

Lemma create_pool_size_witness :
  let self := {| prefs := {[ "lowercase" := PBool true; "uppercase" := PBool false;
                             "numbers" := PBool true; "symbols" := PBool false ]};
                 pool := "" |} in
  String.length (pool (snd (create_pool self)))
    = ((if true then class_size Lowercase else 0) + (if false then class_size Uppercase else 0) +
       (if true then class_size Numbers else 0) + (if false then class_size Symbols else 0))%nat /\
  (String.length (pool (snd (create_pool self))) <= 89)%nat.
Proof.
  intros self.
  apply (create_pool_size self true false true false).
  intros c. destruct c; vm_compute; reflexivity.
Defined.

End Preferences.

Section MoreDraws.
Import Password_Generator.




(** X7.  A stored length that is zero or negative (or the boolean [False])
    gives the empty password: nothing is raised, whatever the pool, and
    nothing is drawn. *)
Theorem generate_password_nonpositive (self : t) (e : entropy) (v : pyval) :
  prefs self !! "length_input" = Some v ->
  index v <= 0 ->
  Password_Generator.generate_password self e = (Return "", e).
Proof.
  intros Hlen Hle. unfold Password_Generator.generate_password, subscript, bind.
  rewrite Hlen. unfold ret at 1.
  replace (Z.to_nat (index v)) with 0%nat by lia. reflexivity.
Qed.

Lemma generate_password_nonpositive_witness :
  Password_Generator.generate_password
    {| prefs := {[ "length_input" := PInt (-5) ]}; pool := "abc" |}
    {| supply := fun i => i; drawn := 2 |}
  = (Return "", {| supply := fun i => i; drawn := 2 |}).
Proof.
  apply (generate_password_nonpositive
           {| prefs := {[ "length_input" := PInt (-5) ]}; pool := "abc" |}
           {| supply := fun i => i; drawn := 2 |} (PInt (-5))).
  - reflexivity.
  - cbn [index]. lia.
Defined.

(** X8.  With a pool of a single character the password is that character
    repeated [length] times, whatever the entropy source delivers. *)
Theorem generate_password_single_character (self : t) (e : entropy) (length : Z) (c : ascii) :
  prefs self !! "length_input" = Some (PInt length) ->
  pool self = String c "" ->
  fst (Password_Generator.generate_password self e)
    = Return (string_of_list_ascii (repeat c (Z.to_nat length))).
Proof.
  intros Hlen Hpool.
  rewrite (generate_password_run self e length Hlen) by (rewrite Hpool; discriminate).
  cbn [fst]. unfold picks. do 2 f_equal.
  generalize 0%nat. induction (Z.to_nat length) as [|n IH]; intros start; [reflexivity|].
  cbn [seq map repeat]. f_equal; [|apply IH].
  unfold selected. rewrite Hpool. cbn [chars list_ascii_of_string List.length].
  rewrite Nat.mod_1_r. reflexivity.
Qed.

Lemma generate_password_single_character_witness :
  fst (Password_Generator.generate_password
         {| prefs := {[ "length_input" := PInt 4 ]}; pool := "x" |}
         {| supply := fun i => (i * 13 + 5)%nat; drawn := 0 |})
    = Return (string_of_list_ascii (repeat "x"%char (Z.to_nat 4))).
Proof.
  apply (generate_password_single_character
           {| prefs := {[ "length_input" := PInt 4 ]}; pool := "x" |}
           {| supply := fun i => (i * 13 + 5)%nat; drawn := 0 |} 4 "x"%char);
    reflexivity.
Defined.

Lemma picks_app (pool : string) (e : entropy) (n m : nat) :
  picks pool e (n + m) = picks pool e n +:+ picks pool (advance n e) m.
Proof.
  apply chars_inj. rewrite chars_app. unfold picks, chars.
  rewrite !list_ascii_of_string_of_list_ascii, seq_app, map_app. f_equal.
  cbn [Nat.add]. rewrite <- (map_id (seq n m)) at 1.
  replace (seq n m) with (map (fun i => (n + i)%nat) (seq 0 m)).
  - rewrite map_id, map_map. apply map_ext. intros i.
    unfold selected, advance. cbn [supply drawn]. do 3 f_equal. lia.
  - clear. revert n. induction m as [|m IH]; intros n; [reflexivity|].
    cbn [seq map]. f_equal; [lia|].
    rewrite <- seq_shift, map_map, <- (IH (S n)).
    apply map_ext. intros i. lia.
Qed.

(** X9.  Passwords compose: from the same non-empty pool, a password of
    length [n] followed by one of length [m], drawn one after the other, are
    together the password of length [n + m] drawn at once, and the entropy
    source ends in the same position. *)
Theorem generate_password_splits (prefs_n prefs_m prefs_nm : gmap string pyval)
    (pool : string) (e : entropy) (n m : Z) :
  prefs_n !! "length_input" = Some (PInt n) ->
  prefs_m !! "length_input" = Some (PInt m) ->
  prefs_nm !! "length_input" = Some (PInt (n + m)) ->
  0 <= n -> 0 <= m -> pool <> "" ->
  exists (first second : string) (e1 e2 : entropy),
    Password_Generator.generate_password {| prefs := prefs_n; pool := pool |} e
      = (Return first, e1) /\
    Password_Generator.generate_password {| prefs := prefs_m; pool := pool |} e1
      = (Return second, e2) /\
    Password_Generator.generate_password {| prefs := prefs_nm; pool := pool |} e
      = (Return (first +:+ second), e2).
Proof.
  intros Hn Hm Hnm Hn0 Hm0 Hpool.
  exists (picks pool e (Z.to_nat n)), (picks pool (advance (Z.to_nat n) e) (Z.to_nat m)),
         (advance (Z.to_nat n) e), (advance (Z.to_nat m) (advance (Z.to_nat n) e)).
  rewrite (generate_password_run _ e n) by done.
  rewrite (generate_password_run _ (advance (Z.to_nat n) e) m) by done.
  rewrite (generate_password_run _ e (n + m)) by done.
  cbn [Password_Generator.pool]. repeat split.
  rewrite Z2Nat.inj_add, picks_app by lia. f_equal.
  unfold advance. cbn [supply drawn]. f_equal. lia.
Qed.

Lemma generate_password_splits_witness :
  exists (first second : string) (e1 e2 : entropy),
    Password_Generator.generate_password
      {| prefs := {[ "length_input" := PInt 2 ]}; pool := "abc" |}
      {| supply := fun i => i; drawn := 0 |} = (Return first, e1) /\
    Password_Generator.generate_password
      {| prefs := {[ "length_input" := PInt 3 ]}; pool := "abc" |} e1
      = (Return second, e2) /\
    Password_Generator.generate_password
      {| prefs := {[ "length_input" := PInt (2 + 3) ]}; pool := "abc" |}
      {| supply := fun i => i; drawn := 0 |} = (Return (first +:+ second), e2).
Proof.
  apply (generate_password_splits
           {[ "length_input" := PInt 2 ]} {[ "length_input" := PInt 3 ]}
           {[ "length_input" := PInt (2 + 3) ]} "abc"
           {| supply := fun i => i; drawn := 0 |} 2 3);
    (reflexivity || lia || discriminate).
Defined.

End MoreDraws.

(* ===================================================================== *)
(** ** Further properties of PasswordGUI.save_excel                       *)
(* ===================================================================== *)

Section MoreStore.
Import PasswordGUI.














End MoreStore.

(* ===================================================================== *)
(** ** Further properties of the handlers                                 *)
(* ===================================================================== *)

Section MoreClicks.
Import Password_Generator PasswordGUI.

Lemma save_excel_other_paths (reader : column_reader)
    (purpose password timestamp path : string) (files : gmap string file) :
  path <> file_path ->
  snd (save_excel reader purpose password timestamp files) !! path = files !! path.
Proof.
  intros Hpath. unfold save_excel, bind, get, ExcelWriter, modify.
  destruct (files !! file_path) as [[wb|raw]|]; cbn [read_excel ret raise snd];
    try reflexivity; by rewrite lookup_insert_ne.
Qed.


Lemma pool_nonempty_of_flag (lc uc nu sy : bool) :
  lc || uc || nu || sy = true -> enabled_alphabets (flags lc uc nu sy) <> "".
Proof. by destruct lc, uc, nu, sy. Qed.







(** X16.  When the store file cannot be opened, a click that gets as far as
    saving raises the reader's error out of the handler; by then the
    password is already on the label and its draws are consumed, while the
    disk is unchanged: the password is shown but not stored. *)
Theorem click_shows_password_before_read_error (reader : column_reader) (ev : inputs)
    (w : world) (length : Z) (purpose raw : string) :
  length_entry ev = Some length -> 0 < length ->
  lower_var ev || upper_var ev || num_var ev || sym_var ev = true ->
  askstring ev = Some purpose -> purpose <> "" ->
  disk w !! file_path = Some (Unreadable raw) ->
  PasswordGUI.generate_password reader ev w
    = (Raise ExcelReadError,
       {| generator := clicked_generator length ev (generator w);
          result_label := picks (pool (clicked_generator length ev (generator w)))
                                (rng w) (Z.to_nat length);
          disk := disk w;
          rng := advance (Z.to_nat length) (rng w) |}).
Proof.
  intros Hlen Hpos Hflag Hask Hpurpose Hfile.
  pose proof (pool_nonempty_of_flag _ _ _ _ Hflag) as Hpool.
  rewrite handler_run, Hlen. destruct (length <=? 0) eqn:Hz; [lia|]. cbv zeta.
  apply String.eqb_neq in Hpool. cbn [clicked_generator pool]. rewrite Hpool.
  rewrite Hask. cbn [provided]. apply String.eqb_neq in Hpurpose. rewrite Hpurpose.
  unfold save_excel, bind, get. by rewrite Hfile.
Qed.

Lemma click_shows_password_before_read_error_witness :
  let ev := {| length_entry := Some 8; lower_var := true; upper_var := false;
               num_var := true; sym_var := false;
               askstring := Some "email"; now := "2024-01-01 00:00:00" |} in
  let w := {| generator := init; result_label := "";
              disk := {[ file_path := Unreadable "not a workbook" ]};
              rng := {| supply := fun i => (i * 7 + 3)%nat; drawn := 0 |} |} in
  PasswordGUI.generate_password na_filter ev w
    = (Raise ExcelReadError,
       {| generator := clicked_generator 8 ev (generator w);
          result_label := picks (pool (clicked_generator 8 ev (generator w)))
                                (rng w) (Z.to_nat 8);
          disk := disk w;
          rng := advance (Z.to_nat 8) (rng w) |}).
Proof.
  intros ev w.
  apply (click_shows_password_before_read_error na_filter ev w 8 "email" "not a workbook");
    (reflexivity || lia || discriminate).
Defined.

(** X17.  Whatever the inputs, a click never touches a file other than
    passwords_sheet.xlsx. *)
Theorem click_other_files_untouched (reader : column_reader) (ev : inputs) (w : world)
    (path : string) :
  path <> file_path ->
  disk (snd (PasswordGUI.generate_password reader ev w)) !! path = disk w !! path.
Proof.
  intros Hpath. rewrite handler_run.
  destruct (length_entry ev) as [z|]; [|reflexivity].
  destruct (z <=? 0); [reflexivity|]. cbv zeta.
  destruct (String.eqb _ ""); [reflexivity|].
  destruct (provided (askstring ev)) as [p|]; [|reflexivity].
  cbn [snd disk]. by apply save_excel_other_paths.
Qed.

Lemma click_other_files_untouched_witness :
  let ev := {| length_entry := Some 8; lower_var := true; upper_var := false;
               num_var := true; sym_var := false;
               askstring := Some "email"; now := "2024-01-01 00:00:00" |} in
  let w := {| generator := init; result_label := "";
              disk := {[ "notes.txt" := Unreadable "remember the milk" ]};
              rng := {| supply := fun i => (i * 7 + 3)%nat; drawn := 0 |} |} in
  disk (snd (PasswordGUI.generate_password na_filter ev w)) !! "notes.txt"
    = disk w !! "notes.txt".
Proof.
  intros ev w.
  apply (click_other_files_untouched na_filter ev w "notes.txt"). discriminate.
Defined.



End MoreClicks.

Section OpenFile.
Import Password_Generator PasswordGUI.

(** X19.  [open_excel] never raises, whatever [os.startfile] does, and never
    changes the disk, the generator or the entropy source; it hands the
    shell nothing but, at most once, the store file; and when that file does
    not exist it launches nothing and says so on the label. *)
Theorem open_excel_is_harmless (system : string) (failure : option string) (d : desktop) :
  exists d' : desktop,
    open_excel system failure d = (Return tt, d') /\
    generator (gui d') = generator (gui d) /\
    disk (gui d') = disk (gui d) /\
    rng (gui d') = rng (gui d) /\
    (launched d' = launched d \/ launched d' = launched d ++ [file_path]) /\
    (disk (gui d) !! file_path = None ->
     launched d' = launched d /\
     result_label (gui d') = "Excel file does not exist yet.").
Proof.
  unfold open_excel, bind, get.
  destruct (disk (gui d) !! file_path) as [f|] eqn:Hfile.
  - destruct (String.eqb system "Windows").
    + destruct failure as [message|]; eexists; (split; [reflexivity|]);
        cbn [gui launched generator disk rng]; repeat (split; [done|]);
        (split; [by (left + right)|discriminate]).
    + eexists. split; [reflexivity|]. repeat (split; [done|]).
      split; [by left|discriminate].
  - eexists. split; [reflexivity|]. cbn [gui launched generator disk rng result_label].
    repeat (split; [done|]). split; [by left|done].
Qed.

(** X20.  On a system other than Windows, with the store file present,
    [open_excel] does nothing at all: nothing is launched and the label
    keeps its text. *)
Theorem open_excel_only_on_windows (system : string) (failure : option string)
    (d : desktop) :
  system <> "Windows" ->
  is_Some (disk (gui d) !! file_path) ->
  open_excel system failure d = (Return tt, d).
Proof.
  intros Hsystem [f Hfile]. unfold open_excel, bind, get. rewrite Hfile.
  apply String.eqb_neq in Hsystem. rewrite Hsystem. reflexivity.
Qed.

Lemma open_excel_only_on_windows_witness :
  let d := {| gui := {| generator := init; result_label := "dkry5cjq";
                        disk := {[ file_path := Xlsx (table_workbook []) ]};
                        rng := {| supply := fun i => i; drawn := 8 |} |};
              launched := [] |} in
  open_excel "Linux" None d = (Return tt, d).
Proof.
  intros d.
  apply (open_excel_only_on_windows "Linux" None d); [discriminate|].
  eexists. apply lookup_singleton_eq.
Defined.



End OpenFile.

Section TwoClicks.
Import Password_Generator PasswordGUI.




End TwoClicks.
